(** * Restaurant browsing: a shallow embedding of [Restaurant_Browsing.py]

    The module filters an in-memory list of restaurant records by cuisine,
    location, minimum rating and maximum delivery time.  The first part of
    this file embeds the three classes as functions over the records; the
    second part ([Module Store]) embeds them again over a store of Python
    objects, to speak about aliasing and mutation. *)

From Stdlib Require Import List String Ascii ZArith Bool Lia PrimFloat.
From Stdlib Require SpecFloat FloatOps FloatAxioms.
Import ListNotations.

Set Warnings "-inexact-float".

Local Open Scope string_scope.
Local Open Scope Z_scope.

(** ** Records *)

(** A restaurant is a dict with the keys [name], [cuisine], [location],
    [rating] and, optionally, [delivery_speed].  [None] stands for a dict in
    which the key [delivery_speed] is missing or bound to [None];
    [r.get("delivery_speed")] cannot tell the two apart. *)
Module Restaurant.
Record t : Type := Build {
  name : string;
  cuisine : string;
  location : string;
  rating : float;
  delivery_speed : option Z
}.
End Restaurant.

(** ** The builtins the filters use *)

(** [str.__bool__]: only the empty string is false. *)
Definition str_truthy (s : string) : bool :=
  match s with
  | EmptyString => false
  | String _ _ => true
  end.

(** [int.__bool__]: only zero is false. *)
Definition int_truthy (n : Z) : bool := negb (n =? 0).

(** [a >= b] on floats, the IEEE 754 comparison: false when either side is
    a NaN. *)
Definition float_ge (a b : float) : bool := PrimFloat.leb b a.

(** [str.lower] restricted to ASCII: the letters [A]..[Z] go to [a]..[z],
    every other character is kept.  The general development below takes
    [lower] as a parameter; this one is used to run the seed data. *)
Definition ascii_lower_char (c : ascii) : ascii :=
  let n := nat_of_ascii c in
  if (Nat.leb 65 n && Nat.leb n 90)%bool then ascii_of_nat (n + 32) else c.

Fixpoint ascii_lower (s : string) : string :=
  match s with
  | EmptyString => EmptyString
  | String c s' => String (ascii_lower_char c) (ascii_lower s')
  end.

(** ** class RestaurantDatabase *)

Record RestaurantDatabase : Type := { restaurants : list Restaurant.t }.

Definition get_restaurants (self : RestaurantDatabase) : list Restaurant.t :=
  restaurants self.

(** [RestaurantDatabase.__init__]: the seed data. *)
Definition pizza_palace : Restaurant.t :=
  Restaurant.Build "Pizza Palace" "Italian" "New York" 4.5 (Some 30).
Definition sushi_world : Restaurant.t :=
  Restaurant.Build "Sushi World" "Japanese" "San Francisco" 4.7 (Some 40).
Definition burger_shack : Restaurant.t :=
  Restaurant.Build "Burger Shack" "American" "Los Angeles" 4.2 (Some 25).
Definition taco_stand : Restaurant.t :=
  Restaurant.Build "Taco Stand" "Mexican" "Chicago" 3.9 (Some 20).
Definition vegan_delight : Restaurant.t :=
  Restaurant.Build "Vegan Delight" "Vegan" "Austin" 4.8 (Some 35).
Definition dim_sum_house : Restaurant.t :=
  Restaurant.Build "Dim Sum House" "Chinese" "Seattle" 4.6 (Some 50).
Definition italian_bistro : Restaurant.t :=
  Restaurant.Build "Italian Bistro" "Italian" "Downtown" 4.0 (Some 30).
Definition sushi_express : Restaurant.t :=
  Restaurant.Build "Sushi Express" "Japanese" "Downtown" 4.2 (Some 30).

Definition RestaurantDatabase_init : RestaurantDatabase :=
  {| restaurants :=
       [ pizza_palace; sushi_world; burger_shack; taco_stand;
         vegan_delight; dim_sum_house; italian_bistro; sushi_express ] |}.

(** ** Outcomes and keyword arguments *)

(** The one exception the module can raise on well-typed arguments:
    [TypeError: f() got an unexpected keyword argument 'k']. *)
Inductive exn : Type :=
| TypeError (unexpected_keyword : string).

(** What a call does: it returns, it raises, or it meets a value of a type
    the filters were not written for ([Undefined]: a number where a string is
    expected, a list item that is not a restaurant dict and the like, which
    the code neither checks nor handles). *)
Inductive outcome (A : Type) : Type :=
| Returns (a : A)
| Raises (e : exn)
| Undefined.
Arguments Returns {A} a.
Arguments Raises {A} e.
Arguments Undefined {A}.

(** The values the callers pass. *)
Inductive pyval : Type :=
| VNone
| VStr (s : string)
| VFloat (x : float)
| VInt (n : Z).

(** The keyword arguments of a call site, in the order written. *)
Definition kwargs : Type := list (string * pyval).

(** The value bound to a parameter whose default is [None]. *)
Fixpoint kwarg (param : string) (kw : kwargs) : pyval :=
  match kw with
  | [] => VNone
  | (k, v) :: kw' => if String.eqb k param then v else kwarg param kw'
  end.

(** The first keyword of the call that names no parameter of the callee. *)
Definition unexpected (params : list string) (kw : kwargs) : option string :=
  List.find (fun k => negb (List.existsb (String.eqb k) params))
            (List.map fst kw).

Definition as_str (v : pyval) : option (option string) :=
  match v with
  | VNone => Some None
  | VStr s => Some (Some s)
  | _ => None
  end.

Definition as_float (v : pyval) : option (option float) :=
  match v with
  | VNone => Some None
  | VFloat x => Some (Some x)
  | _ => None
  end.

Definition as_int (v : pyval) : option (option Z) :=
  match v with
  | VNone => Some None
  | VInt n => Some (Some n)
  | _ => None
  end.

(** ** class RestaurantBrowsing *)

Record RestaurantBrowsing : Type := { database : RestaurantDatabase }.

(** [def search_by_filters(self, cuisine_type=None, location=None,
    rating=None, delivery_speed=None)]. *)
Definition search_by_filters_params : list string :=
  ["cuisine_type"; "location"; "rating"; "delivery_speed"].

Section Browsing.

(** [str.lower], over the strings of the records and of the queries. *)
Variable lower : string -> string.

(** The conditions of the list comprehensions. *)

(** [restaurant['cuisine'].lower() == cuisine_type.lower()] *)
Definition cuisine_is (cuisine_type : string) (restaurant : Restaurant.t) : bool :=
  String.eqb (lower (Restaurant.cuisine restaurant)) (lower cuisine_type).

(** [restaurant['location'].lower() == location.lower()] *)
Definition location_is (location : string) (restaurant : Restaurant.t) : bool :=
  String.eqb (lower (Restaurant.location restaurant)) (lower location).

(** [r["rating"] >= rating] *)
Definition rated_at_least (rating : float) (r : Restaurant.t) : bool :=
  float_ge (Restaurant.rating r) rating.

(** [r.get("delivery_speed") and r["delivery_speed"] <= delivery_speed] *)
Definition fast_enough (delivery_speed : Z) (r : Restaurant.t) : bool :=
  match Restaurant.delivery_speed r with
  | Some d => int_truthy d && (d <=? delivery_speed)
  | None => false
  end.

Definition search_by_cuisine (self : RestaurantBrowsing) (cuisine_type : string)
  : list Restaurant.t :=
  List.filter (cuisine_is cuisine_type) (get_restaurants (database self)).

Definition search_by_location (self : RestaurantBrowsing) (location : string)
  : list Restaurant.t :=
  List.filter (location_is location) (get_restaurants (database self)).

Definition search_by_rating (self : RestaurantBrowsing) (min_rating : float)
  : list Restaurant.t :=
  List.filter (rated_at_least min_rating) (get_restaurants (database self)).

Definition search_by_filters (self : RestaurantBrowsing)
    (cuisine_type location : option string) (rating : option float)
    (delivery_speed : option Z) : list Restaurant.t :=
  let results := get_restaurants (database self) in
  let results :=
    match cuisine_type with
    | Some c => if str_truthy c then List.filter (cuisine_is c) results else results
    | None => results
    end in
  let results :=
    match location with
    | Some l => if str_truthy l then List.filter (location_is l) results else results
    | None => results
    end in
  let results :=
    match rating with
    | Some z => List.filter (rated_at_least z) results
    | None => results
    end in
  let results :=
    match delivery_speed with
    | Some w => List.filter (fast_enough w) results
    | None => results
    end in
  results.

(** A call of [self.search_by_filters] with keyword arguments [kw]: the keywords are matched against
    the parameter list first, then the body runs on the bound values. *)
Definition call_search_by_filters (self : RestaurantBrowsing) (kw : kwargs)
  : outcome (list Restaurant.t) :=
  match unexpected search_by_filters_params kw with
  | Some k => Raises (TypeError k)
  | None =>
      match as_str (kwarg "cuisine_type" kw), as_str (kwarg "location" kw),
            as_float (kwarg "rating" kw), as_int (kwarg "delivery_speed" kw) with
      | Some c, Some l, Some z, Some w => Returns (search_by_filters self c l z w)
      | _, _, _, _ => Undefined
      end
  end.

(** ** class RestaurantSearch *)

Record RestaurantSearch : Type := { browsing : RestaurantBrowsing }.

(** [self.browsing.search_by_filters(cuisine_type=cuisine, location=location,
    min_rating=rating)] *)
Definition search_restaurants (self : RestaurantSearch)
    (cuisine location rating : pyval) : outcome (list Restaurant.t) :=
  call_search_by_filters (browsing self)
    [("cuisine_type", cuisine); ("location", location); ("min_rating", rating)].

End Browsing.

(** The objects the unit tests build in [setUp]. *)
Definition seed_browsing : RestaurantBrowsing :=
  {| database := RestaurantDatabase_init |}.
Definition seed_search : RestaurantSearch := {| browsing := seed_browsing |}.

(** The keyword arguments that pass four well-typed values. *)
Definition of_str (v : option string) : pyval :=
  match v with Some s => VStr s | None => VNone end.
Definition of_float (v : option float) : pyval :=
  match v with Some x => VFloat x | None => VNone end.
Definition of_int (v : option Z) : pyval :=
  match v with Some n => VInt n | None => VNone end.

Definition keywords (cuisine_type location : option string)
    (rating : option float) (delivery_speed : option Z) : kwargs :=
  [("cuisine_type", of_str cuisine_type); ("location", of_str location);
   ("rating", of_float rating); ("delivery_speed", of_int delivery_speed)].

(** ** What the filters select *)

Section Selection.

Variable lower : string -> string.

(** Two strings are equal case-insensitively when [str.lower] sends them
    to the same string. *)
Definition same_ignoring_case (a b : string) : Prop := lower a = lower b.

(** The four stages of [search_by_filters], each as the condition a record
    has to meet to pass it. *)
Definition passes_cuisine (cuisine_type : option string) (r : Restaurant.t) : bool :=
  match cuisine_type with
  | Some c => if str_truthy c then cuisine_is lower c r else true
  | None => true
  end.

Definition passes_location (location : option string) (r : Restaurant.t) : bool :=
  match location with
  | Some l => if str_truthy l then location_is lower l r else true
  | None => true
  end.

Definition passes_rating (rating : option float) (r : Restaurant.t) : bool :=
  match rating with
  | Some z => rated_at_least z r
  | None => true
  end.

Definition passes_delivery_speed (delivery_speed : option Z) (r : Restaurant.t) : bool :=
  match delivery_speed with
  | Some w => fast_enough w r
  | None => true
  end.

(** The filter criteria of the specification. *)
Inductive criterion : Type :=
| Cuisine (x : string)
| Location (y : string)
| MinRating (z : float)
| MaxDeliverySpeed (w : Z).

(** A criterion matches a record as the comprehension of its stage decides.
    A record that [fast_enough w] keeps has a [delivery_speed] of at most
    [w], so a ceiling that no record is under matches no record here. *)
Definition matches (k : criterion) (r : Restaurant.t) : bool :=
  match k with
  | Cuisine x => cuisine_is lower x r
  | Location y => location_is lower y r
  | MinRating z => rated_at_least z r
  | MaxDeliverySpeed w => fast_enough w r
  end.

(** A criterion is in force in a call when it is supplied and the call does
    not skip it: a string that is not empty, or a number. *)
Definition in_force (k : criterion) (cuisine_type location : option string)
    (rating : option float) (delivery_speed : option Z) : Prop :=
  match k with
  | Cuisine x => cuisine_type = Some x /\ x <> EmptyString
  | Location y => location = Some y /\ y <> EmptyString
  | MinRating z => rating = Some z
  | MaxDeliverySpeed w => delivery_speed = Some w
  end.

End Selection.

(** * The same classes over a store of objects

    In Python the restaurants are dict objects, the database holds a list
    object of references to them, and every list comprehension builds a new
    list object of references to the same dicts.  This part threads the
    store through the methods, so that what a call leaves behind can be
    compared with what it found. *)

Module Store.

(** A reference: the index of an object in the store. *)
Definition loc : Type := nat.

Inductive object : Type :=
| Dict (r : Restaurant.t)
| PyList (items : list loc).

(** Objects are only ever added, at the end. *)
Definition store : Type := list object.

(** A method takes the store, returns or raises, and leaves a store. *)
Definition M (A : Type) : Type := store -> outcome A * store.

Definition ret {A : Type} (a : A) : M A := fun s => (Returns a, s).

Definition raise {A : Type} (e : exn) : M A := fun s => (Raises e, s).

Definition undefined {A : Type} : M A := fun s => (Undefined, s).

Definition bind {A B : Type} (m : M A) (k : A -> M B) : M B :=
  fun s =>
    match m s with
    | (Returns a, s') => k a s'
    | (Raises e, s') => (Raises e, s')
    | (Undefined, s') => (Undefined, s')
    end.

Notation "x <- m ;; k" := (bind m (fun x => k))
  (at level 61, m at next level, right associativity).

(** A new object; its reference is returned. *)
Definition new (o : object) : M loc :=
  fun s => (Returns (List.length s), (s ++ [o])%list).

(** The items of the list object at [l]. *)
Definition the_list (l : loc) : M (list loc) :=
  fun s =>
    match nth_error s l with
    | Some (PyList items) => (Returns items, s)
    | _ => (Undefined, s)
    end.

(** The restaurant dict at [l]. *)
Definition the_dict (l : loc) : M Restaurant.t :=
  fun s =>
    match nth_error s l with
    | Some (Dict r) => (Returns r, s)
    | _ => (Undefined, s)
    end.

(** The loop of [[x for x in items if cond(x)]]. *)
Fixpoint keep (cond : Restaurant.t -> bool) (items : list loc) : M (list loc) :=
  match items with
  | [] => ret []
  | x :: items' =>
      r <- the_dict x ;;
      kept <- keep cond items' ;;
      ret (if cond r then x :: kept else kept)
  end.

(** [[x for x in results if cond(x)]]: a new list object. *)
Definition comprehension (cond : Restaurant.t -> bool) (results : loc) : M loc :=
  items <- the_list results ;;
  kept <- keep cond items ;;
  new (PyList kept).

(** *** class RestaurantDatabase *)

Record RestaurantDatabase : Type := { restaurants : loc }.

Definition get_restaurants (self : RestaurantDatabase) : M loc :=
  ret (restaurants self).

Definition RestaurantDatabase_init : M RestaurantDatabase :=
  r1 <- new (Dict pizza_palace) ;;
  r2 <- new (Dict sushi_world) ;;
  r3 <- new (Dict burger_shack) ;;
  r4 <- new (Dict taco_stand) ;;
  r5 <- new (Dict vegan_delight) ;;
  r6 <- new (Dict dim_sum_house) ;;
  r7 <- new (Dict italian_bistro) ;;
  r8 <- new (Dict sushi_express) ;;
  l <- new (PyList [r1; r2; r3; r4; r5; r6; r7; r8]) ;;
  ret {| restaurants := l |}.

(** *** class RestaurantBrowsing *)

Record RestaurantBrowsing : Type := { database : RestaurantDatabase }.

(** *** class RestaurantSearch *)

Record RestaurantSearch : Type := { browsing : RestaurantBrowsing }.

(** The calls a client can make on the facade and on its browsing object. *)
Inductive call : Type :=
| SearchByCuisine (cuisine_type : string)
| SearchByLocation (location : string)
| SearchByRating (min_rating : float)
| SearchByFilters (kw : kwargs)
| SearchRestaurants (cuisine location rating : pyval).

Section Methods.

Variable lower : string -> string.

Definition search_by_cuisine (self : RestaurantBrowsing) (cuisine_type : string)
  : M loc :=
  results <- get_restaurants (database self) ;;
  comprehension (cuisine_is lower cuisine_type) results.

Definition search_by_location (self : RestaurantBrowsing) (location : string)
  : M loc :=
  results <- get_restaurants (database self) ;;
  comprehension (location_is lower location) results.

Definition search_by_rating (self : RestaurantBrowsing) (min_rating : float)
  : M loc :=
  results <- get_restaurants (database self) ;;
  comprehension (rated_at_least min_rating) results.

Definition search_by_filters (self : RestaurantBrowsing)
    (cuisine_type location : option string) (rating : option float)
    (delivery_speed : option Z) : M loc :=
  results <- get_restaurants (database self) ;;
  results <-
    match cuisine_type with
    | Some c =>
        if str_truthy c then comprehension (cuisine_is lower c) results
        else ret results
    | None => ret results
    end ;;
  results <-
    match location with
    | Some l =>
        if str_truthy l then comprehension (location_is lower l) results
        else ret results
    | None => ret results
    end ;;
  results <-
    match rating with
    | Some z => comprehension (rated_at_least z) results
    | None => ret results
    end ;;
  results <-
    match delivery_speed with
    | Some w => comprehension (fast_enough w) results
    | None => ret results
    end ;;
  ret results.

Definition call_search_by_filters (self : RestaurantBrowsing) (kw : kwargs)
  : M loc :=
  match unexpected search_by_filters_params kw with
  | Some k => raise (TypeError k)
  | None =>
      match as_str (kwarg "cuisine_type" kw), as_str (kwarg "location" kw),
            as_float (kwarg "rating" kw), as_int (kwarg "delivery_speed" kw) with
      | Some c, Some l, Some z, Some w => search_by_filters self c l z w
      | _, _, _, _ => undefined
      end
  end.

Definition search_restaurants (self : RestaurantSearch)
    (cuisine location rating : pyval) : M loc :=
  call_search_by_filters (browsing self)
    [("cuisine_type", cuisine); ("location", location); ("min_rating", rating)].

Definition perform (app : RestaurantSearch) (c : call) : M loc :=
  match c with
  | SearchByCuisine cuisine_type => search_by_cuisine (browsing app) cuisine_type
  | SearchByLocation location => search_by_location (browsing app) location
  | SearchByRating min_rating => search_by_rating (browsing app) min_rating
  | SearchByFilters kw => call_search_by_filters (browsing app) kw
  | SearchRestaurants cuisine location rating =>
      search_restaurants app cuisine location rating
  end.

(** The store after a sequence of calls, whatever each of them returned or
    raised. *)
Fixpoint session (app : RestaurantSearch) (calls : list call) (s : store) : store :=
  match calls with
  | [] => s
  | c :: calls' => session app calls' (snd (perform app c s))
  end.

End Methods.

(** *** Reading the store *)

(** The dicts a list of references points to. *)
Fixpoint records (s : store) (items : list loc) : option (list Restaurant.t) :=
  match items with
  | [] => Some []
  | x :: items' =>
      match nth_error s x, records s items' with
      | Some (Dict r), Some rs => Some (r :: rs)
      | _, _ => None
      end
  end.

(** The restaurants of the list object at [l], in order. *)
Definition contents (s : store) (l : loc) : option (list Restaurant.t) :=
  match nth_error s l with
  | Some (PyList items) => records s items
  | _ => None
  end.

(** Every object of [s] is in [s'], at the same reference and with the same
    value. *)
Definition preserved (s s' : store) : Prop :=
  forall (l : loc) (o : object), nth_error s l = Some o -> nth_error s' l = Some o.

(** A computation frames the store when it keeps every object it found. *)
Definition frames {A : Type} (m : M A) : Prop :=
  forall s : store, preserved s (snd (m s)).

(** Started in [s], the computation returns a reference to a list object
    whose restaurants are [rs], and keeps every object of [s]. *)
Definition computes (m : M loc) (s : store) (rs : list Restaurant.t) : Prop :=
  exists (l' : loc) (s' : store),
    m s = (Returns l', s') /\ preserved s s' /\ contents s' l' = Some rs.

(** The store and the objects of [setUp]. *)
Definition seed_store : store := snd (RestaurantDatabase_init []).

Definition seed_database : RestaurantDatabase := {| restaurants := 8%nat |}.

Definition seed_search : RestaurantSearch :=
  {| browsing := {| database := seed_database |} |}.

End Store.

(** ** Sample data *)

(** Two restaurants the delivery filter treats specially: one whose dict has
    no [delivery_speed], one that delivers in zero minutes. *)
Definition walk_in_only : Restaurant.t :=
  Restaurant.Build "Walk-in Only" "Greek" "Harbour" 4.1 None.
Definition next_door : Restaurant.t :=
  Restaurant.Build "Next Door" "Thai" "Harbour" 4.4 (Some 0).

Definition harbour_browsing : RestaurantBrowsing :=
  {| database := {| restaurants := [walk_in_only; next_door] |} |}.

(** A restaurant whose rating is not a number. *)
Definition unrated : Restaurant.t :=
  Restaurant.Build "Unrated" "Fusion" "Harbour" PrimFloat.nan (Some 15).

(** ** Orders on results and on filter arguments *)

(** [subseq l1 l2]: [l1] is [l2] with some elements left out and the others
    in their places. *)
Inductive subseq {A : Type} : list A -> list A -> Prop :=
| subseq_nil : subseq [] []
| subseq_skip (x : A) (l1 l2 : list A) : subseq l1 l2 -> subseq l1 (x :: l2)
| subseq_keep (x : A) (l1 l2 : list A) : subseq l1 l2 -> subseq (x :: l1) (x :: l2).

(** A filter argument relaxed: passed as it is, or left at [None]. *)
Definition relaxes {T : Type} (strict loose : option T) : Prop :=
  loose = strict \/ loose = None.

(** ** What a call adds to the store *)

Definition is_list (o : Store.object) : Prop :=
  match o with
  | Store.PyList _ => True
  | Store.Dict _ => False
  end.

(** The computation leaves the store it found with list objects added at
    the end, and nothing else. *)
Definition adds_lists {A : Type} (m : Store.M A) : Prop :=
  forall s : Store.store,
    exists added : list Store.object,
      snd (m s) = (s ++ added)%list /\ Forall is_list added.

(** The filters of a call that [search_by_filters] applies. *)
Definition filters_in_force (cuisine_type location : option string)
    (rating : option float) (delivery_speed : option Z) : nat :=
  ((match cuisine_type with
    | Some c => if str_truthy c then 1 else 0
    | None => 0
    end)
   + (match location with
      | Some l => if str_truthy l then 1 else 0
      | None => 0
      end)
   + (match rating with Some _ => 1 | None => 0 end)
   + (match delivery_speed with Some _ => 1 | None => 0 end))%nat.

(** Where a search stands after [n] comprehensions.  It started in the
    store [s0], on the list object [db] whose items were [items0]; it is now
    in the store [s] and holds the reference [l]. *)
Definition stage (s0 : Store.store) (db : Store.loc) (items0 : list Store.loc)
    (s : Store.store) (l : Store.loc) (n : nat) : Prop :=
  Store.preserved s0 s /\
  List.length s = (List.length s0 + n)%nat /\
  (exists items,
      nth_error s l = Some (Store.PyList items) /\ subseq items items0 /\
      exists rs, Store.records s items = Some rs) /\
  match n with
  | O => l = db /\ s = s0
  | S _ => (List.length s0 <= l)%nat
  end.

(** Started at a stage [n], the computation returns at a stage [n']. *)
Definition reaches (m : Store.M Store.loc) (s0 : Store.store) (db : Store.loc)
    (items0 : list Store.loc) (s : Store.store) (n' : nat) : Prop :=
  exists (l' : Store.loc) (s' : Store.store),
    m s = (Returns l', s') /\ stage s0 db items0 s' l' n'.

(** ** Lemmas *)

Lemma str_truthy_true (s : string) : str_truthy s = true <-> s <> EmptyString.
Proof.
  destruct s; simpl; split; intro H.
  - discriminate.
  - now contradiction H.
  - discriminate.
  - reflexivity.
Qed.

Lemma int_truthy_true (n : Z) : int_truthy n = true <-> n <> 0.
Proof.
  unfold int_truthy. rewrite negb_true_iff, Z.eqb_neq. tauto.
Qed.

Lemma fast_enough_true (w : Z) (r : Restaurant.t) :
  fast_enough w r = true <->
  exists d, Restaurant.delivery_speed r = Some d /\ d <> 0 /\ d <= w.
Proof.
  unfold fast_enough. destruct (Restaurant.delivery_speed r) as [d|].
  - rewrite andb_true_iff, int_truthy_true, Z.leb_le. split.
    + intros [Hd Hw]. exists d. auto.
    + intros [d' [Heq [Hd Hw]]]. injection Heq as <-. auto.
  - split; [discriminate | intros [d [Heq _]]; discriminate].
Qed.

Section Facts.

Variable lower : string -> string.

Lemma cuisine_is_true (q : string) (r : Restaurant.t) :
  cuisine_is lower q r = true <-> same_ignoring_case lower (Restaurant.cuisine r) q.
Proof. unfold cuisine_is, same_ignoring_case. apply String.eqb_eq. Qed.

Lemma location_is_true (q : string) (r : Restaurant.t) :
  location_is lower q r = true <-> same_ignoring_case lower (Restaurant.location r) q.
Proof. unfold location_is, same_ignoring_case. apply String.eqb_eq. Qed.

(** [search_by_filters] keeps the records that pass its four stages. *)
Lemma search_by_filters_In (self : RestaurantBrowsing)
    (cuisine_type location : option string) (rating : option float)
    (delivery_speed : option Z) (r : Restaurant.t) :
  In r (search_by_filters lower self cuisine_type location rating delivery_speed) <->
  In r (get_restaurants (database self)) /\
  passes_cuisine lower cuisine_type r = true /\
  passes_location lower location r = true /\
  passes_rating rating r = true /\
  passes_delivery_speed delivery_speed r = true.
Proof.
  unfold search_by_filters, passes_cuisine, passes_location, passes_rating,
    passes_delivery_speed.
  destruct cuisine_type as [c|]; [destruct (str_truthy c)|];
    (destruct location as [l|]; [destruct (str_truthy l)|]);
    destruct rating as [z|]; destruct delivery_speed as [w|];
    cbv zeta; rewrite ?filter_In; tauto.
Qed.

(** A criterion in force is one of the stages a returned record passed. *)
Lemma in_force_matches (k : criterion) (cuisine_type location : option string)
    (rating : option float) (delivery_speed : option Z) (r : Restaurant.t) :
  in_force k cuisine_type location rating delivery_speed ->
  passes_cuisine lower cuisine_type r = true ->
  passes_location lower location r = true ->
  passes_rating rating r = true ->
  passes_delivery_speed delivery_speed r = true ->
  matches lower k r = true.
Proof.
  destruct k as [x|y|z|w]; simpl.
  - intros [-> Hx] Hc _ _ _. simpl in Hc.
    apply str_truthy_true in Hx. now rewrite Hx in Hc.
  - intros [-> Hy] _ Hl _ _. simpl in Hl.
    apply str_truthy_true in Hy. now rewrite Hy in Hl.
  - intros -> _ _ Hz _. exact Hz.
  - intros -> _ _ _ Hw. exact Hw.
Qed.

(** On well-typed keyword arguments the call returns what the body computes. *)
Lemma call_search_by_filters_keywords (self : RestaurantBrowsing)
    (cuisine_type location : option string) (rating : option float)
    (delivery_speed : option Z) :
  call_search_by_filters lower self
    (keywords cuisine_type location rating delivery_speed)
  = Returns (search_by_filters lower self cuisine_type location rating delivery_speed).
Proof.
  destruct cuisine_type, location, rating, delivery_speed; reflexivity.
Qed.

End Facts.

(** ** The unit tests *)

Example test_search_by_cuisine :
  let results := search_by_cuisine ascii_lower seed_browsing "Italian" in
  List.length results = 2%nat /\
  List.forallb (fun restaurant => String.eqb (Restaurant.cuisine restaurant) "Italian")
    results = true.
Proof. split; reflexivity. Qed.

Example test_search_by_location :
  let results := search_by_location ascii_lower seed_browsing "Downtown" in
  List.length results = 2%nat /\
  List.forallb (fun restaurant => String.eqb (Restaurant.location restaurant) "Downtown")
    results = true.
Proof. split; reflexivity. Qed.

Example test_search_by_rating :
  let results := search_by_rating seed_browsing 4.0 in
  List.length results = 7%nat /\
  List.forallb (fun restaurant => float_ge (Restaurant.rating restaurant) 4.0)
    results = true.
Proof. split; reflexivity. Qed.

(** ** The facade *)

(** C1: [search_restaurants] passes its rating under the keyword
    [min_rating], which [search_by_filters] does not have: whatever the three
    arguments are, the facade raises [TypeError] and returns nothing.  The
    filter engine called with the keyword [rating], as the unit test does,
    returns the one matching record. *)
Theorem search_restaurants_raises_TypeError :
  (forall (lower : string -> string) (self : RestaurantSearch)
          (cuisine location rating : pyval),
      search_restaurants lower self cuisine location rating
      = Raises (TypeError "min_rating")) /\
  search_restaurants ascii_lower seed_search
    (VStr "Italian") (VStr "Downtown") (VFloat 4.0)
  = Raises (TypeError "min_rating") /\
  call_search_by_filters ascii_lower (browsing seed_search)
    [("cuisine_type", VStr "Italian"); ("location", VStr "Downtown");
     ("rating", VFloat 4.0)]
  = Returns [italian_bistro].
Proof.
  split; [| split].
  - intros lower self cuisine location rating. reflexivity.
  - reflexivity.
  - reflexivity.
Qed.

(** ** The filter engine *)

(** C2, as the code has it: with only a maximum delivery speed [W], every
    returned record is a record of the collection whose [delivery_speed] is
    present and at most [W]; every record whose [delivery_speed] is present,
    not zero and at most [W] is returned; a record without [delivery_speed]
    is never returned. *)
Theorem max_delivery_speed_only (lower : string -> string)
    (self : RestaurantBrowsing) (W : Z) :
  (forall r, In r (search_by_filters lower self None None None (Some W)) ->
             In r (get_restaurants (database self)) /\
             exists d, Restaurant.delivery_speed r = Some d /\ d <= W) /\
  (forall r d, In r (get_restaurants (database self)) ->
               Restaurant.delivery_speed r = Some d -> d <> 0 -> d <= W ->
               In r (search_by_filters lower self None None None (Some W))) /\
  (forall r, In r (get_restaurants (database self)) ->
             Restaurant.delivery_speed r = None ->
             ~ In r (search_by_filters lower self None None None (Some W))).
Proof.
  split; [| split].
  - intros r Hr. apply search_by_filters_In in Hr.
    destruct Hr as [Hin [_ [_ [_ Hw]]]]. simpl in Hw.
    apply fast_enough_true in Hw. destruct Hw as [d [Hd [_ Hle]]].
    split; [exact Hin | exists d; auto].
  - intros r d Hin Hd Hnz Hle. apply search_by_filters_In.
    repeat split; try reflexivity; try exact Hin.
    simpl. apply fast_enough_true. exists d. auto.
  - intros r Hin Hnone Hr. apply search_by_filters_In in Hr.
    destruct Hr as [_ [_ [_ [_ Hw]]]]. simpl in Hw.
    apply fast_enough_true in Hw. destruct Hw as [d [Hd _]].
    rewrite Hnone in Hd. discriminate.
Qed.

(** On the seed data Burger Shack (25 minutes) is returned for [W = 30]. *)
Lemma max_delivery_speed_only_witness :
  In burger_shack (get_restaurants (database seed_browsing)) /\
  Restaurant.delivery_speed burger_shack = Some 25 /\ 25 <> 0 /\ 25 <= 30 /\
  In burger_shack (search_by_filters ascii_lower seed_browsing None None None (Some 30)).
Proof.
  assert (Hin : In burger_shack (get_restaurants (database seed_browsing)))
    by (simpl; auto).
  assert (Hd : Restaurant.delivery_speed burger_shack = Some 25) by reflexivity.
  assert (Hnz : 25 <> 0) by lia.
  assert (Hle : 25 <= 30) by lia.
  repeat split; try assumption.
  exact (proj1 (proj2 (max_delivery_speed_only ascii_lower seed_browsing 30))
           burger_shack 25 Hin Hd Hnz Hle).
Defined.

(** C2, as the claim has it, fails: both records of the harbour collection
    are within 30 minutes in the claim's sense (one delivers in 0 minutes,
    the other has no [delivery_speed]), and neither is returned. *)
Lemma max_delivery_speed_drops_zero_and_absent :
  In next_door (get_restaurants (database harbour_browsing)) /\
  Restaurant.delivery_speed next_door = Some 0 /\ 0 <= 30 /\
  In walk_in_only (get_restaurants (database harbour_browsing)) /\
  Restaurant.delivery_speed walk_in_only = None /\
  search_by_filters ascii_lower harbour_browsing None None None (Some 30) = [].
Proof.
  repeat split; try reflexivity; simpl; auto. lia.
Qed.

(** C3: with only a minimum rating [z], [search_by_filters] and
    [search_by_rating] return the same list, and a record is in it exactly
    when it is a record of the collection with rating [>= z]. *)
Theorem min_rating_only (lower : string -> string) (self : RestaurantBrowsing)
    (z : float) (r : Restaurant.t) :
  (In r (search_by_filters lower self None None (Some z) None) <->
   In r (get_restaurants (database self)) /\
   float_ge (Restaurant.rating r) z = true) /\
  (In r (search_by_rating self z) <->
   In r (get_restaurants (database self)) /\
   float_ge (Restaurant.rating r) z = true) /\
  search_by_filters lower self None None (Some z) None = search_by_rating self z.
Proof.
  split; [| split].
  - rewrite search_by_filters_In. simpl. unfold rated_at_least. tauto.
  - unfold search_by_rating. rewrite filter_In. unfold rated_at_least. tauto.
  - reflexivity.
Qed.

(** C4: for a cuisine query that is not the empty string, a record is
    returned by [search_by_cuisine], and by [search_by_filters] with only
    [cuisine_type] supplied, exactly when it is a record of the collection
    whose cuisine equals the query case-insensitively. *)
Theorem cuisine_only (lower : string -> string) (self : RestaurantBrowsing)
    (q : string) (r : Restaurant.t) :
  q <> EmptyString ->
  (In r (search_by_cuisine lower self q) <->
   In r (get_restaurants (database self)) /\
   same_ignoring_case lower (Restaurant.cuisine r) q) /\
  (In r (search_by_filters lower self (Some q) None None None) <->
   In r (get_restaurants (database self)) /\
   same_ignoring_case lower (Restaurant.cuisine r) q).
Proof.
  intro Hq. apply str_truthy_true in Hq. split.
  - unfold search_by_cuisine. rewrite filter_In, cuisine_is_true. tauto.
  - rewrite search_by_filters_In. simpl. rewrite Hq, cuisine_is_true. tauto.
Qed.

(** On the seed data, for the query "italian" and Pizza Palace. *)
Lemma cuisine_only_witness :
  "italian"%string <> EmptyString /\
  ((In pizza_palace (search_by_cuisine ascii_lower seed_browsing "italian") <->
    In pizza_palace (get_restaurants (database seed_browsing)) /\
    same_ignoring_case ascii_lower (Restaurant.cuisine pizza_palace) "italian") /\
   (In pizza_palace
       (search_by_filters ascii_lower seed_browsing (Some "italian") None None None) <->
    In pizza_palace (get_restaurants (database seed_browsing)) /\
    same_ignoring_case ascii_lower (Restaurant.cuisine pizza_palace) "italian")).
Proof.
  split.
  - discriminate.
  - apply (cuisine_only ascii_lower seed_browsing "italian" pizza_palace).
    discriminate.
Defined.

(** C5: with no predicate supplied [search_by_filters] returns the list of
    the database as it is; on the seed data, the eight records in the order
    of [__init__]. *)
Theorem no_filters_returns_everything :
  (forall (lower : string -> string) (self : RestaurantBrowsing),
      search_by_filters lower self None None None None
      = get_restaurants (database self)) /\
  (forall lower : string -> string,
      search_by_filters lower seed_browsing None None None None
      = [ pizza_palace; sushi_world; burger_shack; taco_stand;
          vegan_delight; dim_sum_house; italian_bistro; sushi_express ]).
Proof.
  split; intros; reflexivity.
Qed.

(** C6: whatever the four filter arguments are, every returned record is a
    record of the database. *)
Theorem result_within_dataset (lower : string -> string)
    (self : RestaurantBrowsing) (cuisine_type location : option string)
    (rating : option float) (delivery_speed : option Z) (r : Restaurant.t) :
  In r (search_by_filters lower self cuisine_type location rating delivery_speed) ->
  In r (get_restaurants (database self)).
Proof.
  intro Hr. apply search_by_filters_In in Hr. tauto.
Qed.

(** On the seed data, with all four filters, for Italian Bistro. *)
Lemma result_within_dataset_witness :
  In italian_bistro
     (search_by_filters ascii_lower seed_browsing
        (Some "Italian") (Some "Downtown") (Some 4.0%float) (Some 45)) /\
  In italian_bistro (get_restaurants (database seed_browsing)).
Proof.
  assert (H : In italian_bistro
                (search_by_filters ascii_lower seed_browsing
                   (Some "Italian") (Some "Downtown") (Some 4.0%float) (Some 45)))
    by (simpl; auto).
  split.
  - exact H.
  - exact (result_within_dataset ascii_lower seed_browsing _ _ _ _ _ H).
Defined.

(** C7, as the code has it: when a supplied criterion other than an empty
    cuisine or location string matches no record of the collection,
    [search_by_filters] returns the empty list, and the call returns it: it
    does not raise and it returns no other value. *)
Theorem no_match_returns_empty_list (lower : string -> string)
    (self : RestaurantBrowsing) (cuisine_type location : option string)
    (rating : option float) (delivery_speed : option Z) (k : criterion) :
  in_force k cuisine_type location rating delivery_speed ->
  (forall r, In r (get_restaurants (database self)) -> matches lower k r = false) ->
  search_by_filters lower self cuisine_type location rating delivery_speed = [] /\
  call_search_by_filters lower self
    (keywords cuisine_type location rating delivery_speed)
  = Returns [].
Proof.
  intros Hk Hnone.
  assert (Hempty :
    search_by_filters lower self cuisine_type location rating delivery_speed = []).
  { destruct (search_by_filters lower self cuisine_type location rating delivery_speed)
      as [|r rs] eqn:Hres; [reflexivity | exfalso].
    assert (Hr : In r (search_by_filters lower self cuisine_type location rating
                         delivery_speed)) by (rewrite Hres; left; reflexivity).
    apply search_by_filters_In in Hr.
    destruct Hr as [Hin [Hc [Hl [Hz Hw]]]].
    pose proof (in_force_matches lower k _ _ _ _ r Hk Hc Hl Hz Hw) as Hm.
    rewrite (Hnone r Hin) in Hm. discriminate. }
  split; [exact Hempty |].
  rewrite call_search_by_filters_keywords, Hempty. reflexivity.
Qed.

(** On the seed data no restaurant is Thai. *)
Lemma no_match_returns_empty_list_witness :
  search_by_filters ascii_lower seed_browsing (Some "Thai") None (Some 4.0%float) None = [] /\
  call_search_by_filters ascii_lower seed_browsing
    (keywords (Some "Thai") None (Some 4.0%float) None)
  = Returns [].
Proof.
  apply (no_match_returns_empty_list ascii_lower seed_browsing
           (Some "Thai"%string) None (Some 4.0%float) None (Cuisine "Thai")).
  - simpl. split; [reflexivity | discriminate].
  - intros r Hin. simpl in Hin.
    repeat (destruct Hin as [<- | Hin]; [reflexivity |]). contradiction.
Defined.

(** C7, as the claim has it, fails: on the seed data the cuisine criterion
    with the empty string is supplied and matches none of the eight records,
    and all eight are returned. *)
Lemma empty_cuisine_matches_nothing_returns_all :
  List.forallb (fun r => negb (matches ascii_lower (Cuisine EmptyString) r))
    (get_restaurants (database seed_browsing)) = true /\
  search_by_filters ascii_lower seed_browsing (Some EmptyString) None None None
  = [ pizza_palace; sushi_world; burger_shack; taco_stand;
      vegan_delight; dim_sum_house; italian_bistro; sushi_express ] /\
  search_by_filters ascii_lower seed_browsing (Some EmptyString) None None None <> [].
Proof.
  repeat split; try reflexivity. discriminate.
Qed.

(** C8: on the seed data, the call of the unit test, with
    [cuisine_type="Italian"], [location="Downtown"] and [rating=4.0], returns
    exactly one record, whose name is "Italian Bistro". *)
Theorem seed_italian_downtown_4 :
  call_search_by_filters ascii_lower seed_browsing
    [("cuisine_type", VStr "Italian"); ("location", VStr "Downtown");
     ("rating", VFloat 4.0)]
  = Returns [italian_bistro] /\
  search_by_filters ascii_lower seed_browsing
    (Some "Italian") (Some "Downtown") (Some 4.0%float) None
  = [italian_bistro] /\
  Restaurant.name italian_bistro = "Italian Bistro"%string.
Proof.
  repeat split; reflexivity.
Qed.

(** C10: the empty string as [cuisine_type] or as [location] is the same
    as [None]: the filter is skipped.  On the seed data, where no record has
    an empty cuisine or location, all eight records are returned. *)
Theorem empty_string_is_unset :
  (forall (lower : string -> string) (self : RestaurantBrowsing)
          (cuisine_type location : option string) (rating : option float)
          (delivery_speed : option Z),
      search_by_filters lower self (Some EmptyString) location rating delivery_speed
      = search_by_filters lower self None location rating delivery_speed /\
      search_by_filters lower self cuisine_type (Some EmptyString) rating delivery_speed
      = search_by_filters lower self cuisine_type None rating delivery_speed) /\
  (forall lower : string -> string,
      search_by_filters lower seed_browsing (Some EmptyString) (Some EmptyString) None None
      = get_restaurants (database seed_browsing)).
Proof.
  split.
  - intros. split; reflexivity.
  - intros. reflexivity.
Qed.

(** ** The store: what a call leaves behind *)

Lemma preserved_refl (s : Store.store) : Store.preserved s s.
Proof. intros l o H. exact H. Qed.

Lemma preserved_trans (s1 s2 s3 : Store.store) :
  Store.preserved s1 s2 -> Store.preserved s2 s3 -> Store.preserved s1 s3.
Proof. intros H12 H23 l o H. apply H23, H12, H. Qed.

Lemma preserved_app (s : Store.store) (added : list Store.object) :
  Store.preserved s (s ++ added)%list.
Proof.
  intros l o H. rewrite nth_error_app1; [exact H |].
  apply nth_error_Some. rewrite H. discriminate.
Qed.

Lemma frames_ret {A : Type} (a : A) : Store.frames (Store.ret a).
Proof. intro s. apply preserved_refl. Qed.

Lemma frames_raise {A : Type} (e : exn) : Store.frames (@Store.raise A e).
Proof. intro s. apply preserved_refl. Qed.

Lemma frames_undefined {A : Type} : Store.frames (@Store.undefined A).
Proof. intro s. apply preserved_refl. Qed.

Lemma frames_bind {A B : Type} (m : Store.M A) (k : A -> Store.M B) :
  Store.frames m -> (forall a, Store.frames (k a)) -> Store.frames (Store.bind m k).
Proof.
  intros Hm Hk s. unfold Store.bind.
  specialize (Hm s). destruct (m s) as [[a | e |] s']; simpl in *.
  - eapply preserved_trans; [exact Hm | apply Hk].
  - exact Hm.
  - exact Hm.
Qed.

Lemma frames_new (o : Store.object) : Store.frames (Store.new o).
Proof. intro s. apply preserved_app. Qed.

Lemma frames_the_list (l : Store.loc) : Store.frames (Store.the_list l).
Proof.
  intro s. unfold Store.the_list.
  destruct (nth_error s l) as [[r | items] |]; apply preserved_refl.
Qed.

Lemma frames_the_dict (l : Store.loc) : Store.frames (Store.the_dict l).
Proof.
  intro s. unfold Store.the_dict.
  destruct (nth_error s l) as [[r | items] |]; apply preserved_refl.
Qed.

Create HintDb frames.
#[local] Hint Resolve frames_ret frames_raise frames_undefined frames_new
  frames_the_list frames_the_dict : frames.

Lemma frames_keep (cond : Restaurant.t -> bool) (items : list Store.loc) :
  Store.frames (Store.keep cond items).
Proof.
  induction items as [| x items IH]; simpl.
  - apply frames_ret.
  - apply frames_bind; [apply frames_the_dict | intro r].
    apply frames_bind; [exact IH | intro kept]. apply frames_ret.
Qed.

Lemma frames_comprehension (cond : Restaurant.t -> bool) (results : Store.loc) :
  Store.frames (Store.comprehension cond results).
Proof.
  unfold Store.comprehension.
  apply frames_bind; [apply frames_the_list | intro items].
  apply frames_bind; [apply frames_keep | intro kept]. apply frames_new.
Qed.

#[local] Hint Resolve frames_keep frames_comprehension : frames.

Ltac frames_step :=
  first [ apply frames_bind; [| intro]
        | match goal with
          | |- Store.frames (match ?x with _ => _ end) => destruct x
          end
        | solve [auto with frames] ].

Section StoreFacts.

Variable lower : string -> string.

Lemma frames_search_by_cuisine (self : Store.RestaurantBrowsing) (q : string) :
  Store.frames (Store.search_by_cuisine lower self q).
Proof. unfold Store.search_by_cuisine, Store.get_restaurants. repeat frames_step. Qed.

Lemma frames_search_by_location (self : Store.RestaurantBrowsing) (q : string) :
  Store.frames (Store.search_by_location lower self q).
Proof. unfold Store.search_by_location, Store.get_restaurants. repeat frames_step. Qed.

Lemma frames_search_by_rating (self : Store.RestaurantBrowsing) (z : float) :
  Store.frames (Store.search_by_rating self z).
Proof. unfold Store.search_by_rating, Store.get_restaurants. repeat frames_step. Qed.

Lemma frames_search_by_filters (self : Store.RestaurantBrowsing)
    (cuisine_type location : option string) (rating : option float)
    (delivery_speed : option Z) :
  Store.frames (Store.search_by_filters lower self cuisine_type location rating delivery_speed).
Proof. unfold Store.search_by_filters, Store.get_restaurants. repeat frames_step. Qed.

Lemma frames_call_search_by_filters (self : Store.RestaurantBrowsing) (kw : kwargs) :
  Store.frames (Store.call_search_by_filters lower self kw).
Proof.
  unfold Store.call_search_by_filters.
  destruct (unexpected search_by_filters_params kw) as [k |];
    [apply frames_raise |].
  destruct (as_str (kwarg "cuisine_type" kw)) as [c |];
    [| apply frames_undefined].
  destruct (as_str (kwarg "location" kw)) as [l |];
    [| apply frames_undefined].
  destruct (as_float (kwarg "rating" kw)) as [z |];
    [| apply frames_undefined].
  destruct (as_int (kwarg "delivery_speed" kw)) as [w |];
    [| apply frames_undefined].
  apply frames_search_by_filters.
Qed.

Lemma frames_perform (app : Store.RestaurantSearch) (c : Store.call) :
  Store.frames (Store.perform lower app c).
Proof.
  destruct c; simpl.
  - apply frames_search_by_cuisine.
  - apply frames_search_by_location.
  - apply frames_search_by_rating.
  - apply frames_call_search_by_filters.
  - apply frames_call_search_by_filters.
Qed.

Lemma session_preserved (app : Store.RestaurantSearch) (calls : list Store.call)
    (s : Store.store) :
  Store.preserved s (Store.session lower app calls s).
Proof.
  revert s. induction calls as [| c calls IH]; intro s; simpl.
  - apply preserved_refl.
  - eapply preserved_trans; [apply frames_perform | apply IH].
Qed.

End StoreFacts.

(** ** The store: what a call returns *)

Lemma records_preserved (s s' : Store.store) (items : list Store.loc)
    (rs : list Restaurant.t) :
  Store.preserved s s' ->
  Store.records s items = Some rs -> Store.records s' items = Some rs.
Proof.
  intro Hp. revert rs. induction items as [| x items IH]; intros rs; simpl.
  - auto.
  - destruct (nth_error s x) as [[r | its] |] eqn:Hx; try discriminate.
    destruct (Store.records s items) as [rs' |]; try discriminate.
    intro H. rewrite (Hp _ _ Hx), (IH rs' eq_refl). exact H.
Qed.

Lemma contents_preserved (s s' : Store.store) (l : Store.loc)
    (rs : list Restaurant.t) :
  Store.preserved s s' ->
  Store.contents s l = Some rs -> Store.contents s' l = Some rs.
Proof.
  intro Hp. unfold Store.contents.
  destruct (nth_error s l) as [[r | items] |] eqn:Hl; try discriminate.
  rewrite (Hp _ _ Hl). apply records_preserved, Hp.
Qed.

(** The loop of a comprehension returns the references whose dicts meet the
    condition, in order, and leaves the store as it is. *)
Lemma keep_filter (cond : Restaurant.t -> bool) (s : Store.store)
    (items : list Store.loc) (rs : list Restaurant.t) :
  Store.records s items = Some rs ->
  exists kept,
    Store.keep cond items s = (Returns kept, s) /\
    Store.records s kept = Some (List.filter cond rs).
Proof.
  revert rs. induction items as [| x items IH]; intros rs; simpl.
  - intros [= <-]. exists []. split; reflexivity.
  - destruct (nth_error s x) as [[r | its] |] eqn:Hx; try discriminate.
    destruct (Store.records s items) as [rs' |]; try discriminate.
    intros [= <-]. destruct (IH rs' eq_refl) as [kept [Hkeep Hkept]].
    exists (if cond r then x :: kept else kept). split.
    + unfold Store.bind, Store.the_dict. rewrite Hx, Hkeep. reflexivity.
    + simpl. destruct (cond r); simpl; [rewrite Hx, Hkept |]; auto.
Qed.

Lemma computes_ret (s : Store.store) (l : Store.loc) (rs : list Restaurant.t) :
  Store.contents s l = Some rs -> Store.computes (Store.ret l) s rs.
Proof.
  intro H. exists l, s. repeat split; [apply preserved_refl | exact H].
Qed.

Lemma computes_comprehension (cond : Restaurant.t -> bool) (s : Store.store)
    (l : Store.loc) (rs : list Restaurant.t) :
  Store.contents s l = Some rs ->
  Store.computes (Store.comprehension cond l) s (List.filter cond rs).
Proof.
  unfold Store.contents. intro H.
  destruct (nth_error s l) as [[r | items] |] eqn:Hl; try discriminate.
  destruct (keep_filter cond s items rs H) as [kept [Hkeep Hkept]].
  exists (List.length s), (s ++ [Store.PyList kept])%list. split; [| split].
  - unfold Store.comprehension, Store.bind, Store.the_list.
    rewrite Hl, Hkeep. reflexivity.
  - apply preserved_app.
  - unfold Store.contents.
    rewrite nth_error_app2, Nat.sub_diag by apply Nat.le_refl. simpl.
    apply (records_preserved s); [apply preserved_app | exact Hkept].
Qed.

Lemma computes_bind (m : Store.M Store.loc) (k : Store.loc -> Store.M Store.loc)
    (s : Store.store) (rs rs' : list Restaurant.t) :
  Store.computes m s rs ->
  (forall l' s', Store.preserved s s' -> Store.contents s' l' = Some rs ->
                 Store.computes (k l') s' rs') ->
  Store.computes (Store.bind m k) s rs'.
Proof.
  intros [l1 [s1 [Hm [Hp1 Hc1]]]] Hk.
  destruct (Hk l1 s1 Hp1 Hc1) as [l2 [s2 [Hk2 [Hp2 Hc2]]]].
  exists l2, s2. split; [| split].
  - unfold Store.bind. rewrite Hm. exact Hk2.
  - eapply preserved_trans; eassumption.
  - exact Hc2.
Qed.

Section Refinement.

Variable lower : string -> string.

(** The methods over the store return, and the list object they return
    holds the restaurants the methods over lists compute. *)

Lemma search_by_cuisine_refines (self : Store.RestaurantBrowsing) (q : string)
    (s : Store.store) (rs : list Restaurant.t) :
  Store.contents s (Store.restaurants (Store.database self)) = Some rs ->
  Store.computes (Store.search_by_cuisine lower self q) s
    (search_by_cuisine lower {| database := {| restaurants := rs |} |} q).
Proof.
  intro H. unfold Store.search_by_cuisine, Store.get_restaurants.
  eapply computes_bind; [apply computes_ret, H |].
  intros l' s' _ H'. apply computes_comprehension, H'.
Qed.

Lemma search_by_location_refines (self : Store.RestaurantBrowsing) (q : string)
    (s : Store.store) (rs : list Restaurant.t) :
  Store.contents s (Store.restaurants (Store.database self)) = Some rs ->
  Store.computes (Store.search_by_location lower self q) s
    (search_by_location lower {| database := {| restaurants := rs |} |} q).
Proof.
  intro H. unfold Store.search_by_location, Store.get_restaurants.
  eapply computes_bind; [apply computes_ret, H |].
  intros l' s' _ H'. apply computes_comprehension, H'.
Qed.

Lemma search_by_rating_refines (self : Store.RestaurantBrowsing) (z : float)
    (s : Store.store) (rs : list Restaurant.t) :
  Store.contents s (Store.restaurants (Store.database self)) = Some rs ->
  Store.computes (Store.search_by_rating self z) s
    (search_by_rating {| database := {| restaurants := rs |} |} z).
Proof.
  intro H. unfold Store.search_by_rating, Store.get_restaurants.
  eapply computes_bind; [apply computes_ret, H |].
  intros l' s' _ H'. apply computes_comprehension, H'.
Qed.

Lemma search_by_filters_refines (self : Store.RestaurantBrowsing)
    (cuisine_type location : option string) (rating : option float)
    (delivery_speed : option Z) (s : Store.store) (rs : list Restaurant.t) :
  Store.contents s (Store.restaurants (Store.database self)) = Some rs ->
  Store.computes
    (Store.search_by_filters lower self cuisine_type location rating delivery_speed) s
    (search_by_filters lower {| database := {| restaurants := rs |} |}
       cuisine_type location rating delivery_speed).
Proof.
  intro H. unfold Store.search_by_filters, Store.get_restaurants, search_by_filters.
  simpl get_restaurants. cbv zeta.
  destruct cuisine_type as [c |]; [destruct (str_truthy c) |];
    (destruct location as [l |]; [destruct (str_truthy l) |]);
    destruct rating as [z |]; destruct delivery_speed as [w |];
    repeat (eapply computes_bind;
            [ first [apply computes_comprehension | apply computes_ret];
              eassumption
            | intros ? ? _ ? ]);
    apply computes_ret; assumption.
Qed.

(** With no filter the method returns the list object of the database
    itself, not a copy. *)
Lemma search_by_filters_no_filter_alias (self : Store.RestaurantBrowsing)
    (s : Store.store) :
  Store.search_by_filters lower self None None None None s
  = (Returns (Store.restaurants (Store.database self)), s).
Proof. reflexivity. Qed.

End Refinement.

(** [__init__] builds the seed store, whose list holds the seed records. *)
Lemma RestaurantDatabase_init_seed :
  Store.RestaurantDatabase_init [] = (Returns Store.seed_database, Store.seed_store) /\
  Store.contents Store.seed_store (Store.restaurants Store.seed_database)
  = Some (get_restaurants RestaurantDatabase_init).
Proof. split; reflexivity. Qed.

(** ** The database after the calls *)

(** C9: no sequence of calls of [search_by_cuisine], [search_by_location],
    [search_by_rating], [search_by_filters] and [search_restaurants] changes
    an object of the store: every object is found afterwards at its
    reference with its value, and the list of the database holds the same
    records in the same order. *)
Theorem searches_do_not_mutate (lower : string -> string)
    (app : Store.RestaurantSearch) (calls : list Store.call)
    (s : Store.store) (rs : list Restaurant.t) :
  Store.contents s (Store.restaurants (Store.database (Store.browsing app))) = Some rs ->
  Store.preserved s (Store.session lower app calls s) /\
  Store.contents (Store.session lower app calls s)
    (Store.restaurants (Store.database (Store.browsing app))) = Some rs.
Proof.
  intro H. split.
  - apply session_preserved.
  - eapply contents_preserved; [apply session_preserved | exact H].
Qed.

(** On the seed store, for a session that makes every kind of call. *)
Lemma searches_do_not_mutate_witness :
  let calls :=
    [ Store.SearchByCuisine "Italian"; Store.SearchByLocation "Downtown";
      Store.SearchByRating 4.0;
      Store.SearchByFilters
        [("cuisine_type", VStr "Italian"); ("location", VStr "Downtown");
         ("rating", VFloat 4.0)];
      Store.SearchByFilters [("delivery_speed", VInt 30)];
      Store.SearchByFilters [];
      Store.SearchRestaurants (VStr "Italian") (VStr "Downtown") (VFloat 4.0) ] in
  Store.contents Store.seed_store
    (Store.restaurants (Store.database (Store.browsing Store.seed_search)))
  = Some (get_restaurants RestaurantDatabase_init) /\
  Store.preserved Store.seed_store
    (Store.session ascii_lower Store.seed_search calls Store.seed_store) /\
  Store.contents (Store.session ascii_lower Store.seed_search calls Store.seed_store)
    (Store.restaurants (Store.database (Store.browsing Store.seed_search)))
  = Some (get_restaurants RestaurantDatabase_init).
Proof.
  intro calls. split.
  - reflexivity.
  - apply (searches_do_not_mutate ascii_lower Store.seed_search calls
             Store.seed_store (get_restaurants RestaurantDatabase_init)).
    reflexivity.
Defined.

(** * Further properties of the filters *)

(** ** Lists *)

Lemma subseq_refl {A : Type} (l : list A) : subseq l l.
Proof. induction l; constructor; assumption. Qed.

Lemma subseq_trans {A : Type} (l1 l2 l3 : list A) :
  subseq l1 l2 -> subseq l2 l3 -> subseq l1 l3.
Proof.
  intros H12 H23. revert l1 H12.
  induction H23 as [| x l2 l3 H23 IH | x l2 l3 H23 IH]; intros l1 H12.
  - exact H12.
  - apply subseq_skip, IH, H12.
  - inversion H12; subst.
    + apply subseq_skip, IH. assumption.
    + apply subseq_keep, IH. assumption.
Qed.

Lemma subseq_filter {A : Type} (f : A -> bool) (l : list A) :
  subseq (List.filter f l) l.
Proof.
  induction l as [| x l IH]; simpl.
  - constructor.
  - destruct (f x); constructor; exact IH.
Qed.

Lemma subseq_length {A : Type} (l1 l2 : list A) :
  subseq l1 l2 -> (List.length l1 <= List.length l2)%nat.
Proof. induction 1; simpl; lia. Qed.

Lemma filter_all {A : Type} (f : A -> bool) (l : list A) :
  (forall x, In x l -> f x = true) -> List.filter f l = l.
Proof.
  induction l as [| x l IH]; simpl; intro H.
  - reflexivity.
  - rewrite (H x (or_introl eq_refl)), IH; auto.
Qed.

(** ** Floats *)

(** [<=] on binary64 is transitive, NaNs included (they are below and above
    nothing). *)
Lemma SFleb_trans (a b c : SpecFloat.spec_float) :
  SpecFloat.SFleb a b = true -> SpecFloat.SFleb b c = true ->
  SpecFloat.SFleb a c = true.
Proof.
  unfold SpecFloat.SFleb, SpecFloat.SFcompare.
  destruct a as [sa | sa | | sa ma ea], b as [sb | sb | | sb mb eb],
           c as [sc | sc | | sc mc ec];
    try destruct sa; try destruct sb; try destruct sc;
    try (intros; reflexivity); try (intros; discriminate);
    change (PosDef.Pos.compare_cont Eq) with Pos.compare;
    destruct (Z.compare_spec ea eb), (Z.compare_spec eb ec), (Z.compare_spec ea ec);
    try (intros; reflexivity); try (intros; discriminate); try (exfalso; lia); subst;
    destruct (Pos.compare_spec ma mb), (Pos.compare_spec mb mc), (Pos.compare_spec ma mc);
    simpl;
    try (intros; reflexivity); try (intros; discriminate); try (exfalso; lia).
Qed.

Lemma float_ge_trans (x y z : float) :
  float_ge x y = true -> float_ge y z = true -> float_ge x z = true.
Proof.
  unfold float_ge. rewrite !FloatAxioms.leb_spec. intros Hxy Hyz.
  eapply SFleb_trans; eassumption.
Qed.

Lemma is_nan_Prim2SF (x : float) :
  PrimFloat.is_nan x = true -> FloatOps.Prim2SF x = SpecFloat.S754_nan.
Proof.
  unfold PrimFloat.is_nan. rewrite FloatAxioms.eqb_spec, negb_true_iff.
  unfold SpecFloat.SFeqb, SpecFloat.SFcompare.
  destruct (FloatOps.Prim2SF x) as [s | s | | s m e]; try (destruct s);
    try discriminate; try reflexivity;
    rewrite ?Z.compare_refl; change (PosDef.Pos.compare_cont Eq) with Pos.compare;
    rewrite ?Pos.compare_refl; simpl; discriminate.
Qed.

Lemma float_ge_nan_r (x y : float) :
  PrimFloat.is_nan y = true -> float_ge x y = false.
Proof.
  intro H. unfold float_ge. rewrite FloatAxioms.leb_spec, (is_nan_Prim2SF y H).
  reflexivity.
Qed.

Lemma float_ge_nan_l (x y : float) :
  PrimFloat.is_nan x = true -> float_ge x y = false.
Proof.
  intro H. unfold float_ge. rewrite FloatAxioms.leb_spec, (is_nan_Prim2SF x H).
  unfold SpecFloat.SFleb, SpecFloat.SFcompare.
  destruct (FloatOps.Prim2SF y) as [s | s | | s m e]; reflexivity.
Qed.

(** ** The single-criterion methods and the filter engine *)

Section Engine.

Variable lower : string -> string.

(** X1: [search_by_location] returns exactly the records of the database
    whose location equals the query case-insensitively, for every query,
    the empty string included. *)
Theorem location_only (self : RestaurantBrowsing) (q : string) (r : Restaurant.t) :
  In r (search_by_location lower self q) <->
  In r (get_restaurants (database self)) /\
  same_ignoring_case lower (Restaurant.location r) q.
Proof.
  unfold search_by_location. rewrite filter_In, location_is_true. tauto.
Qed.

(** X2: for a query that is not the empty string, [search_by_filters] with
    only that cuisine (only that location) returns the very list that
    [search_by_cuisine] ([search_by_location]) returns. *)
Theorem one_string_filter_agrees (self : RestaurantBrowsing) (q : string) :
  q <> EmptyString ->
  search_by_filters lower self (Some q) None None None = search_by_cuisine lower self q /\
  search_by_filters lower self None (Some q) None None = search_by_location lower self q.
Proof.
  intro Hq. apply str_truthy_true in Hq.
  unfold search_by_filters, search_by_cuisine, search_by_location.
  rewrite Hq. split; reflexivity.
Qed.

(** X3: the two entry points part on the empty string.  When no record has
    a cuisine (a location) that lowers to what the empty string lowers to,
    [search_by_cuisine] ([search_by_location]) on the empty string returns
    nothing, and [search_by_filters] on it returns the whole list. *)
Theorem empty_query_parts_the_entry_points (self : RestaurantBrowsing) :
  (forall r, In r (get_restaurants (database self)) ->
             lower (Restaurant.cuisine r) <> lower EmptyString) ->
  (forall r, In r (get_restaurants (database self)) ->
             lower (Restaurant.location r) <> lower EmptyString) ->
  search_by_cuisine lower self EmptyString = [] /\
  search_by_location lower self EmptyString = [] /\
  search_by_filters lower self (Some EmptyString) None None None
  = get_restaurants (database self) /\
  search_by_filters lower self None (Some EmptyString) None None
  = get_restaurants (database self).
Proof.
  intros Hc Hl.
  assert (Hnil : forall (f : Restaurant.t -> bool) (l : list Restaurant.t),
             (forall r, In r l -> f r = false) -> List.filter f l = []).
  { intros f l. induction l as [| x l IH]; simpl; intro H; [reflexivity |].
    rewrite (H x (or_introl eq_refl)). apply IH. auto. }
  repeat split.
  - apply Hnil. intros r Hr. unfold cuisine_is. apply String.eqb_neq, Hc, Hr.
  - apply Hnil. intros r Hr. unfold location_is. apply String.eqb_neq, Hl, Hr.
Qed.

(** X4: with a cuisine and a location that are not empty and a minimum
    rating, [search_by_filters] returns the records that [search_by_cuisine],
    [search_by_location] and [search_by_rating] all return. *)
Theorem filters_intersect (self : RestaurantBrowsing) (c l : string) (z : float)
    (r : Restaurant.t) :
  c <> EmptyString -> l <> EmptyString ->
  (In r (search_by_filters lower self (Some c) (Some l) (Some z) None) <->
   In r (search_by_cuisine lower self c) /\
   In r (search_by_location lower self l) /\
   In r (search_by_rating self z)).
Proof.
  intros Hc Hl. apply str_truthy_true in Hc, Hl.
  rewrite search_by_filters_In. simpl. rewrite Hc, Hl.
  unfold search_by_cuisine, search_by_location, search_by_rating.
  rewrite !filter_In. tauto.
Qed.

(** X5: every search returns its records in the order of the database, each
    at most as often as the database holds it: the result is the database
    list with some records left out, and is no longer than it. *)
Theorem results_in_database_order (self : RestaurantBrowsing)
    (q : string) (min_rating : float)
    (cuisine_type location : option string) (rating : option float)
    (delivery_speed : option Z) :
  let all := get_restaurants (database self) in
  let filtered := search_by_filters lower self cuisine_type location rating delivery_speed in
  subseq (search_by_cuisine lower self q) all /\
  subseq (search_by_location lower self q) all /\
  subseq (search_by_rating self min_rating) all /\
  subseq filtered all /\
  (List.length filtered <= List.length all)%nat.
Proof.
  intros all filtered.
  assert (H : subseq filtered all).
  { unfold filtered, all, search_by_filters.
    destruct cuisine_type as [c |]; [destruct (str_truthy c) |];
      (destruct location as [l |]; [destruct (str_truthy l) |]);
      destruct rating as [z |]; destruct delivery_speed as [w |]; cbv zeta;
      repeat (eapply subseq_trans; [apply subseq_filter |]);
      apply subseq_refl. }
  repeat split; try apply subseq_filter; [exact H | apply subseq_length, H].
Qed.

(** X6: leaving a filter out never loses a record: what a call returns is
    returned by every call in which some of its arguments are left at
    [None] and the others are the same. *)
Theorem dropping_filters_widens (self : RestaurantBrowsing)
    (cuisine_type cuisine_type' location location' : option string)
    (rating rating' : option float) (delivery_speed delivery_speed' : option Z)
    (r : Restaurant.t) :
  relaxes cuisine_type cuisine_type' -> relaxes location location' ->
  relaxes rating rating' -> relaxes delivery_speed delivery_speed' ->
  In r (search_by_filters lower self cuisine_type location rating delivery_speed) ->
  In r (search_by_filters lower self cuisine_type' location' rating' delivery_speed').
Proof.
  intros Hc Hl Hz Hw. rewrite !search_by_filters_In.
  intros [Hin [Pc [Pl [Pz Pw]]]].
  destruct Hc as [-> | ->], Hl as [-> | ->], Hz as [-> | ->], Hw as [-> | ->];
    repeat split; try assumption; reflexivity.
Qed.

(** X7: a larger maximum delivery speed never loses a record. *)
Theorem max_delivery_speed_monotone (self : RestaurantBrowsing)
    (cuisine_type location : option string) (rating : option float)
    (w1 w2 : Z) (r : Restaurant.t) :
  w1 <= w2 ->
  In r (search_by_filters lower self cuisine_type location rating (Some w1)) ->
  In r (search_by_filters lower self cuisine_type location rating (Some w2)).
Proof.
  intro Hle. rewrite !search_by_filters_In.
  intros [Hin [Pc [Pl [Pz Pw]]]]. repeat split; try assumption.
  simpl in *. apply fast_enough_true in Pw. destruct Pw as [d [Hd [Hnz Hdw]]].
  apply fast_enough_true. exists d. repeat split; try assumption. lia.
Qed.

(** X8: a smaller minimum rating never loses a record, in [search_by_rating]
    and in [search_by_filters]. *)
Theorem min_rating_monotone (self : RestaurantBrowsing)
    (cuisine_type location : option string) (delivery_speed : option Z)
    (z1 z2 : float) (r : Restaurant.t) :
  float_ge z2 z1 = true ->
  (In r (search_by_rating self z2) -> In r (search_by_rating self z1)) /\
  (In r (search_by_filters lower self cuisine_type location (Some z2) delivery_speed) ->
   In r (search_by_filters lower self cuisine_type location (Some z1) delivery_speed)).
Proof.
  intro Hz. split.
  - unfold search_by_rating, rated_at_least. rewrite !filter_In.
    intros [Hin Hr]. split; [exact Hin |]. eapply float_ge_trans; eassumption.
  - rewrite !search_by_filters_In. intros [Hin [Pc [Pl [Pz Pw]]]].
    repeat split; try assumption. simpl in *. unfold rated_at_least in *.
    eapply float_ge_trans; eassumption.
Qed.

(** X9: a NaN as minimum rating matches nothing: [search_by_rating] and
    [search_by_filters] return the empty list, whatever the other filters
    are. *)
Theorem nan_rating_returns_nothing (self : RestaurantBrowsing)
    (cuisine_type location : option string) (delivery_speed : option Z)
    (z : float) :
  PrimFloat.is_nan z = true ->
  search_by_rating self z = [] /\
  search_by_filters lower self cuisine_type location (Some z) delivery_speed = [].
Proof.
  intro Hz. split.
  - unfold search_by_rating.
    induction (get_restaurants (database self)) as [| x l IH]; simpl;
      [reflexivity |].
    unfold rated_at_least at 1. rewrite (float_ge_nan_r _ z Hz). exact IH.
  - destruct (search_by_filters lower self cuisine_type location (Some z)
                delivery_speed) as [| r rs] eqn:Hres; [reflexivity | exfalso].
    assert (Hr : In r (search_by_filters lower self cuisine_type location (Some z)
                         delivery_speed)) by (rewrite Hres; left; reflexivity).
    apply search_by_filters_In in Hr. destruct Hr as [_ [_ [_ [Pz _]]]].
    simpl in Pz. unfold rated_at_least in Pz.
    rewrite (float_ge_nan_r _ z Hz) in Pz. discriminate.
Qed.

(** X10: a record whose rating is a NaN is returned by no search that has
    a minimum rating. *)
Theorem nan_rated_record_is_dropped (self : RestaurantBrowsing)
    (cuisine_type location : option string) (delivery_speed : option Z)
    (z : float) (r : Restaurant.t) :
  PrimFloat.is_nan (Restaurant.rating r) = true ->
  ~ In r (search_by_rating self z) /\
  ~ In r (search_by_filters lower self cuisine_type location (Some z) delivery_speed).
Proof.
  intro Hr. split.
  - unfold search_by_rating, rated_at_least. rewrite filter_In.
    rewrite (float_ge_nan_l _ z Hr). intros [_ H]. discriminate.
  - rewrite search_by_filters_In. simpl. unfold rated_at_least.
    rewrite (float_ge_nan_l _ z Hr). intros [_ [_ [_ [H _]]]]. discriminate.
Qed.

(** X11: searching the result again with the same arguments changes
    nothing. *)
Theorem search_again_same (self : RestaurantBrowsing)
    (cuisine_type location : option string) (rating : option float)
    (delivery_speed : option Z) :
  let result := search_by_filters lower self cuisine_type location rating delivery_speed in
  search_by_filters lower {| database := {| restaurants := result |} |}
    cuisine_type location rating delivery_speed
  = result.
Proof.
  intro result.
  assert (H : forall r, In r result ->
              passes_cuisine lower cuisine_type r = true /\
              passes_location lower location r = true /\
              passes_rating rating r = true /\
              passes_delivery_speed delivery_speed r = true).
  { intros r Hr. apply search_by_filters_In in Hr. tauto. }
  clearbody result. unfold search_by_filters. simpl get_restaurants.
  unfold passes_cuisine, passes_location, passes_rating, passes_delivery_speed in H.
  destruct cuisine_type as [c |]; [destruct (str_truthy c) |];
    (destruct location as [l |]; [destruct (str_truthy l) |]);
    destruct rating as [z |]; destruct delivery_speed as [w |]; cbv zeta;
    repeat match goal with
           | |- context [List.filter ?f result] =>
               rewrite (filter_all f result) by (intros r Hr; apply (H r Hr))
           end;
    reflexivity.
Qed.

(** X12: two queries that are not empty and lower to the same string give
    the same results, in the single-criterion methods and in
    [search_by_filters]. *)
Theorem query_case_is_irrelevant (self : RestaurantBrowsing) (q q' : string)
    (cuisine_type location : option string) (rating : option float)
    (delivery_speed : option Z) :
  q <> EmptyString -> q' <> EmptyString -> lower q = lower q' ->
  search_by_cuisine lower self q = search_by_cuisine lower self q' /\
  search_by_location lower self q = search_by_location lower self q' /\
  search_by_filters lower self (Some q) location rating delivery_speed
  = search_by_filters lower self (Some q') location rating delivery_speed /\
  search_by_filters lower self cuisine_type (Some q) rating delivery_speed
  = search_by_filters lower self cuisine_type (Some q') rating delivery_speed.
Proof.
  intros Hq Hq' Heq. apply str_truthy_true in Hq, Hq'.
  unfold search_by_cuisine, search_by_location, search_by_filters,
    cuisine_is, location_is.
  rewrite Hq, Hq', Heq. repeat split; reflexivity.
Qed.

(** X13: a maximum delivery speed of zero or less is applied, not skipped:
    when no record has a negative [delivery_speed], the result is empty. *)
Theorem nonpositive_max_delivery_speed (self : RestaurantBrowsing)
    (cuisine_type location : option string) (rating : option float) (W : Z) :
  W <= 0 ->
  (forall r d, In r (get_restaurants (database self)) ->
               Restaurant.delivery_speed r = Some d -> 0 <= d) ->
  search_by_filters lower self cuisine_type location rating (Some W) = [].
Proof.
  intros HW Hpos.
  destruct (search_by_filters lower self cuisine_type location rating (Some W))
    as [| r rs] eqn:Hres; [reflexivity | exfalso].
  assert (Hr : In r (search_by_filters lower self cuisine_type location rating
                       (Some W))) by (rewrite Hres; left; reflexivity).
  apply search_by_filters_In in Hr. destruct Hr as [Hin [_ [_ [_ Pw]]]].
  simpl in Pw. apply fast_enough_true in Pw. destruct Pw as [d [Hd [Hnz Hle]]].
  specialize (Hpos r d Hin Hd). lia.
Qed.

End Engine.

(** Case analysis on a record of the seed data. *)
Ltac each_seed_record Hin :=
  simpl in Hin;
  repeat (destruct Hin as [<- | Hin]; [| ]);
  try contradiction.

(** For the query "downtown" on the seed data. *)
Lemma one_string_filter_agrees_witness :
  search_by_filters ascii_lower seed_browsing (Some "downtown") None None None
  = search_by_cuisine ascii_lower seed_browsing "downtown" /\
  search_by_filters ascii_lower seed_browsing None (Some "downtown") None None
  = search_by_location ascii_lower seed_browsing "downtown".
Proof.
  apply (one_string_filter_agrees ascii_lower seed_browsing "downtown").
  discriminate.
Defined.

(** On the seed data. *)
Lemma empty_query_parts_the_entry_points_witness :
  search_by_cuisine ascii_lower seed_browsing EmptyString = [] /\
  search_by_location ascii_lower seed_browsing EmptyString = [] /\
  search_by_filters ascii_lower seed_browsing (Some EmptyString) None None None
  = get_restaurants (database seed_browsing) /\
  search_by_filters ascii_lower seed_browsing None (Some EmptyString) None None
  = get_restaurants (database seed_browsing).
Proof.
  apply (empty_query_parts_the_entry_points ascii_lower seed_browsing).
  - intros r Hin. each_seed_record Hin; discriminate.
  - intros r Hin. each_seed_record Hin; discriminate.
Defined.

(** On the seed data, for Italian Bistro. *)
Lemma filters_intersect_witness :
  In italian_bistro
     (search_by_filters ascii_lower seed_browsing
        (Some "italian") (Some "downtown") (Some 4.0%float) None) <->
  In italian_bistro (search_by_cuisine ascii_lower seed_browsing "italian") /\
  In italian_bistro (search_by_location ascii_lower seed_browsing "downtown") /\
  In italian_bistro (search_by_rating seed_browsing 4.0).
Proof.
  apply (filters_intersect ascii_lower seed_browsing "italian" "downtown"
           4.0%float italian_bistro); discriminate.
Defined.

(** On the seed data: Italian Bistro is found with three filters, hence
    with the cuisine alone. *)
Lemma dropping_filters_widens_witness :
  In italian_bistro
     (search_by_filters ascii_lower seed_browsing (Some "Italian") None None None).
Proof.
  apply (dropping_filters_widens ascii_lower seed_browsing
           (Some "Italian"%string) (Some "Italian"%string)
           (Some "Downtown"%string) None (Some 4.0%float) None None None
           italian_bistro).
  - left. reflexivity.
  - right. reflexivity.
  - right. reflexivity.
  - left. reflexivity.
  - simpl. auto.
Defined.

(** On the seed data: Taco Stand is within 20 minutes, hence within 30. *)
Lemma max_delivery_speed_monotone_witness :
  In taco_stand (search_by_filters ascii_lower seed_browsing None None None (Some 30)).
Proof.
  apply (max_delivery_speed_monotone ascii_lower seed_browsing None None None
           20 30 taco_stand).
  - lia.
  - simpl. auto.
Defined.

(** On the seed data: Vegan Delight is rated 4.5 or more, hence 4.0 or
    more. *)
Lemma min_rating_monotone_witness :
  In vegan_delight (search_by_rating seed_browsing 4.0) /\
  In vegan_delight
     (search_by_filters ascii_lower seed_browsing None None (Some 4.0%float) None).
Proof.
  pose proof (min_rating_monotone ascii_lower seed_browsing None None None
                4.0%float 4.5%float vegan_delight eq_refl) as [H1 H2].
  split.
  - apply H1. simpl. auto.
  - apply H2. simpl. auto.
Defined.

(** On the seed data, with the NaN of the float type. *)
Lemma nan_rating_returns_nothing_witness :
  search_by_rating seed_browsing PrimFloat.nan = [] /\
  search_by_filters ascii_lower seed_browsing (Some "Italian") None
    (Some PrimFloat.nan) None = [].
Proof.
  apply (nan_rating_returns_nothing ascii_lower seed_browsing
           (Some "Italian"%string) None None PrimFloat.nan).
  reflexivity.
Defined.

(** For a database that holds the unrated restaurant, and the bound 0.0. *)
Lemma nan_rated_record_is_dropped_witness :
  let self := {| database := {| restaurants := [unrated; pizza_palace] |} |} in
  ~ In unrated (search_by_rating self 0.0) /\
  ~ In unrated (search_by_filters ascii_lower self None None (Some 0.0%float) None).
Proof.
  intro self.
  apply (nan_rated_record_is_dropped ascii_lower self None None None
           0.0%float unrated).
  reflexivity.
Defined.

(** On the seed data, for "ITALIAN" and "italian". *)
Lemma query_case_is_irrelevant_witness :
  search_by_cuisine ascii_lower seed_browsing "ITALIAN"
  = search_by_cuisine ascii_lower seed_browsing "italian" /\
  search_by_location ascii_lower seed_browsing "ITALIAN"
  = search_by_location ascii_lower seed_browsing "italian" /\
  search_by_filters ascii_lower seed_browsing (Some "ITALIAN") None None (Some 30)
  = search_by_filters ascii_lower seed_browsing (Some "italian") None None (Some 30) /\
  search_by_filters ascii_lower seed_browsing None (Some "ITALIAN") None (Some 30)
  = search_by_filters ascii_lower seed_browsing None (Some "italian") None (Some 30).
Proof.
  apply (query_case_is_irrelevant ascii_lower seed_browsing "ITALIAN" "italian"
           None None None (Some 30)).
  - discriminate.
  - discriminate.
  - reflexivity.
Defined.

(** On the seed data, for a maximum of 0 minutes. *)
Lemma nonpositive_max_delivery_speed_witness :
  search_by_filters ascii_lower seed_browsing None None None (Some 0) = [].
Proof.
  apply (nonpositive_max_delivery_speed ascii_lower seed_browsing None None None 0).
  - lia.
  - intros r d Hin. each_seed_record Hin; intros [= <-]; lia.
Defined.

(** ** The store: what a call adds *)

Lemma adds_lists_ret {A : Type} (a : A) : adds_lists (Store.ret a).
Proof. intro s. exists []. split; [symmetry; apply app_nil_r | constructor]. Qed.

Lemma adds_lists_raise {A : Type} (e : exn) : adds_lists (@Store.raise A e).
Proof. intro s. exists []. split; [symmetry; apply app_nil_r | constructor]. Qed.

Lemma adds_lists_undefined {A : Type} : adds_lists (@Store.undefined A).
Proof. intro s. exists []. split; [symmetry; apply app_nil_r | constructor]. Qed.

Lemma adds_lists_bind {A B : Type} (m : Store.M A) (k : A -> Store.M B) :
  adds_lists m -> (forall a, adds_lists (k a)) -> adds_lists (Store.bind m k).
Proof.
  intros Hm Hk s. unfold Store.bind.
  destruct (Hm s) as [a1 [E1 F1]].
  destruct (m s) as [[a | e |] s1]; simpl in E1; subst s1; simpl.
  - destruct (Hk a (s ++ a1)%list) as [a2 [E2 F2]].
    exists (a1 ++ a2)%list. split.
    + rewrite E2. symmetry. apply app_assoc.
    + apply Forall_app. split; assumption.
  - exists a1. split; [reflexivity | exact F1].
  - exists a1. split; [reflexivity | exact F1].
Qed.

Lemma adds_lists_new_list (items : list Store.loc) :
  adds_lists (Store.new (Store.PyList items)).
Proof.
  intro s. exists [Store.PyList items]. split; [reflexivity |].
  constructor; [exact I | constructor].
Qed.

Lemma adds_lists_the_list (l : Store.loc) : adds_lists (Store.the_list l).
Proof.
  intro s. exists []. unfold Store.the_list.
  destruct (nth_error s l) as [[r | items] |]; simpl;
    (split; [symmetry; apply app_nil_r | constructor]).
Qed.

Lemma adds_lists_the_dict (l : Store.loc) : adds_lists (Store.the_dict l).
Proof.
  intro s. exists []. unfold Store.the_dict.
  destruct (nth_error s l) as [[r | items] |]; simpl;
    (split; [symmetry; apply app_nil_r | constructor]).
Qed.

Lemma adds_lists_keep (cond : Restaurant.t -> bool) (items : list Store.loc) :
  adds_lists (Store.keep cond items).
Proof.
  induction items as [| x items IH]; simpl.
  - apply adds_lists_ret.
  - apply adds_lists_bind; [apply adds_lists_the_dict | intro r].
    apply adds_lists_bind; [exact IH | intro kept]. apply adds_lists_ret.
Qed.

Lemma adds_lists_comprehension (cond : Restaurant.t -> bool) (results : Store.loc) :
  adds_lists (Store.comprehension cond results).
Proof.
  unfold Store.comprehension.
  apply adds_lists_bind; [apply adds_lists_the_list | intro items].
  apply adds_lists_bind; [apply adds_lists_keep | intro kept].
  apply adds_lists_new_list.
Qed.

Lemma adds_lists_search_by_filters (lower : string -> string)
    (self : Store.RestaurantBrowsing) (cuisine_type location : option string)
    (rating : option float) (delivery_speed : option Z) :
  adds_lists (Store.search_by_filters lower self cuisine_type location rating
                delivery_speed).
Proof.
  unfold Store.search_by_filters, Store.get_restaurants.
  destruct cuisine_type as [c |]; [destruct (str_truthy c) |];
    (destruct location as [l |]; [destruct (str_truthy l) |]);
    destruct rating as [z |]; destruct delivery_speed as [w |];
    repeat first [ apply adds_lists_ret
                 | apply adds_lists_comprehension
                 | apply adds_lists_bind; [| intro] ].
Qed.

Lemma adds_lists_call_search_by_filters (lower : string -> string)
    (self : Store.RestaurantBrowsing) (kw : kwargs) :
  adds_lists (Store.call_search_by_filters lower self kw).
Proof.
  unfold Store.call_search_by_filters.
  destruct (unexpected search_by_filters_params kw) as [k |];
    [apply adds_lists_raise |].
  destruct (as_str (kwarg "cuisine_type" kw)) as [c |];
    [| apply adds_lists_undefined].
  destruct (as_str (kwarg "location" kw)) as [l |];
    [| apply adds_lists_undefined].
  destruct (as_float (kwarg "rating" kw)) as [z |];
    [| apply adds_lists_undefined].
  destruct (as_int (kwarg "delivery_speed" kw)) as [w |];
    [| apply adds_lists_undefined].
  apply adds_lists_search_by_filters.
Qed.

Lemma adds_lists_perform (lower : string -> string)
    (app : Store.RestaurantSearch) (c : Store.call) :
  adds_lists (Store.perform lower app c).
Proof.
  destruct c; simpl.
  - unfold Store.search_by_cuisine, Store.get_restaurants.
    apply adds_lists_bind; [apply adds_lists_ret | intro].
    apply adds_lists_comprehension.
  - unfold Store.search_by_location, Store.get_restaurants.
    apply adds_lists_bind; [apply adds_lists_ret | intro].
    apply adds_lists_comprehension.
  - unfold Store.search_by_rating, Store.get_restaurants.
    apply adds_lists_bind; [apply adds_lists_ret | intro].
    apply adds_lists_comprehension.
  - apply adds_lists_call_search_by_filters.
  - apply adds_lists_call_search_by_filters.
Qed.

(** X14: whatever calls a session makes, the store it leaves is the store
    it found followed by new list objects: no restaurant dict is created or
    copied, and the objects that were there are at their places. *)
Theorem session_only_adds_lists (lower : string -> string)
    (app : Store.RestaurantSearch) (calls : list Store.call) (s : Store.store) :
  exists added : list Store.object,
    Store.session lower app calls s = (s ++ added)%list /\ Forall is_list added.
Proof.
  revert s. induction calls as [| c calls IH]; intro s; simpl.
  - exists []. split; [symmetry; apply app_nil_r | constructor].
  - destruct (adds_lists_perform lower app c s) as [a1 [E1 F1]].
    rewrite E1. destruct (IH (s ++ a1)%list) as [a2 [E2 F2]].
    exists (a1 ++ a2)%list. split.
    + rewrite E2. symmetry. apply app_assoc.
    + apply Forall_app. split; assumption.
Qed.

(** ** The store: the list a search returns *)

Lemma subseq_In {A : Type} (l1 l2 : list A) (x : A) :
  subseq l1 l2 -> In x l1 -> In x l2.
Proof.
  induction 1 as [| y l1 l2 H IH | y l1 l2 H IH]; simpl; intro Hx.
  - exact Hx.
  - right. apply IH, Hx.
  - destruct Hx as [-> | Hx]; [left; reflexivity | right; apply IH, Hx].
Qed.

Lemma records_In (s : Store.store) (items : list Store.loc)
    (rs : list Restaurant.t) (x : Store.loc) :
  Store.records s items = Some rs -> In x items ->
  exists r, nth_error s x = Some (Store.Dict r).
Proof.
  revert rs. induction items as [| y items IH]; simpl; intros rs H Hx.
  - contradiction.
  - destruct (nth_error s y) as [[r | its] |] eqn:Hy; try discriminate.
    destruct (Store.records s items) as [rs' |]; try discriminate.
    destruct Hx as [<- | Hx]; [exists r; exact Hy | apply (IH rs' eq_refl Hx)].
Qed.

(** The loop of a comprehension keeps references of the list it reads, in
    their order. *)
Lemma keep_subseq (cond : Restaurant.t -> bool) (s : Store.store)
    (items : list Store.loc) (rs : list Restaurant.t) :
  Store.records s items = Some rs ->
  exists kept,
    Store.keep cond items s = (Returns kept, s) /\ subseq kept items /\
    exists rs', Store.records s kept = Some rs'.
Proof.
  revert rs. induction items as [| x items IH]; intros rs; simpl.
  - intros _. exists []. repeat split; [constructor | exists []; reflexivity].
  - destruct (nth_error s x) as [[r | its] |] eqn:Hx; try discriminate.
    destruct (Store.records s items) as [rs0 |]; try discriminate.
    intros _. destruct (IH rs0 eq_refl) as [kept [Hkeep [Hsub [rs' Hrs']]]].
    exists (if cond r then x :: kept else kept). split; [| split].
    + unfold Store.bind, Store.the_dict. rewrite Hx, Hkeep. reflexivity.
    + destruct (cond r); constructor; exact Hsub.
    + destruct (cond r).
      * exists (r :: rs'). simpl. rewrite Hx, Hrs'. reflexivity.
      * exists rs'. exact Hrs'.
Qed.

Lemma reaches_ret (s0 : Store.store) (db : Store.loc) (items0 : list Store.loc)
    (s : Store.store) (l : Store.loc) (n : nat) :
  stage s0 db items0 s l n -> reaches (Store.ret l) s0 db items0 s n.
Proof. intro H. exists l, s. split; [reflexivity | exact H]. Qed.

Lemma reaches_comprehension (cond : Restaurant.t -> bool) (s0 : Store.store)
    (db : Store.loc) (items0 : list Store.loc) (s : Store.store)
    (l : Store.loc) (n : nat) :
  stage s0 db items0 s l n ->
  reaches (Store.comprehension cond l) s0 db items0 s (S n).
Proof.
  intros [Hp [Hlen [[items [Hl [Hsub [rs Hrs]]]] _]]].
  destruct (keep_subseq cond s items rs Hrs) as [kept [Hkeep [Hks [rs' Hrs']]]].
  exists (List.length s), (s ++ [Store.PyList kept])%list. split.
  - unfold Store.comprehension, Store.bind, Store.the_list.
    rewrite Hl, Hkeep. reflexivity.
  - split; [| split; [| split]].
    + eapply preserved_trans; [exact Hp | apply preserved_app].
    + rewrite length_app. simpl. lia.
    + exists kept. split; [| split].
      * rewrite nth_error_app2, Nat.sub_diag by apply Nat.le_refl. reflexivity.
      * eapply subseq_trans; eassumption.
      * exists rs'. apply (records_preserved s); [apply preserved_app | exact Hrs'].
    + lia.
Qed.

Lemma reaches_bind (m : Store.M Store.loc) (k : Store.loc -> Store.M Store.loc)
    (s0 : Store.store) (db : Store.loc) (items0 : list Store.loc)
    (s : Store.store) (n n' : nat) :
  reaches m s0 db items0 s n ->
  (forall l1 s1, stage s0 db items0 s1 l1 n -> reaches (k l1) s0 db items0 s1 n') ->
  reaches (Store.bind m k) s0 db items0 s n'.
Proof.
  intros [l1 [s1 [Hm H1]]] Hk.
  destruct (Hk l1 s1 H1) as [l2 [s2 [Hk2 H2]]].
  exists l2, s2. split; [| exact H2].
  unfold Store.bind. rewrite Hm. exact Hk2.
Qed.

Lemma stage_start (s : Store.store) (db : Store.loc) (items0 : list Store.loc)
    (rs : list Restaurant.t) :
  nth_error s db = Some (Store.PyList items0) ->
  Store.records s items0 = Some rs ->
  stage s db items0 s db 0.
Proof.
  intros Hdb Hrs. split; [apply preserved_refl | split; [lia | split]].
  - exists items0. split; [exact Hdb | split; [apply subseq_refl |]].
    exists rs. exact Hrs.
  - split; reflexivity.
Qed.

Lemma search_by_filters_reaches (lower : string -> string)
    (self : Store.RestaurantBrowsing) (cuisine_type location : option string)
    (rating : option float) (delivery_speed : option Z)
    (s : Store.store) (items0 : list Store.loc) (rs : list Restaurant.t) :
  nth_error s (Store.restaurants (Store.database self)) = Some (Store.PyList items0) ->
  Store.records s items0 = Some rs ->
  reaches (Store.search_by_filters lower self cuisine_type location rating
             delivery_speed)
    s (Store.restaurants (Store.database self)) items0 s
    (filters_in_force cuisine_type location rating delivery_speed).
Proof.
  intros Hdb Hrs. pose proof (stage_start s _ items0 rs Hdb Hrs) as H0.
  unfold Store.search_by_filters, Store.get_restaurants, filters_in_force.
  destruct cuisine_type as [c |]; [destruct (str_truthy c) |];
    (destruct location as [l |]; [destruct (str_truthy l) |]);
    destruct rating as [z |]; destruct delivery_speed as [w |]; simpl Nat.add;
    repeat (eapply reaches_bind;
            [ first [apply reaches_comprehension | apply reaches_ret];
              eassumption
            | intros ? ? ? ]);
    apply reaches_ret; assumption.
Qed.

Section Aliasing.

Variable lower : string -> string.

(** X15: [search_by_filters] builds one new list object for each filter in
    force.  With none in force it returns the list object of the database
    itself and leaves the store as it is; otherwise it returns a list object
    that was not in the store before. *)
Theorem one_list_per_filter (self : Store.RestaurantBrowsing)
    (cuisine_type location : option string) (rating : option float)
    (delivery_speed : option Z) (s : Store.store) (rs : list Restaurant.t) :
  Store.contents s (Store.restaurants (Store.database self)) = Some rs ->
  exists (l' : Store.loc) (s' : Store.store),
    Store.search_by_filters lower self cuisine_type location rating delivery_speed s
    = (Returns l', s') /\
    List.length s'
    = (List.length s
       + filters_in_force cuisine_type location rating delivery_speed)%nat /\
    (filters_in_force cuisine_type location rating delivery_speed = 0%nat ->
     l' = Store.restaurants (Store.database self) /\ s' = s) /\
    ((0 < filters_in_force cuisine_type location rating delivery_speed)%nat ->
     nth_error s l' = None).
Proof.
  unfold Store.contents. intro H.
  destruct (nth_error s (Store.restaurants (Store.database self)))
    as [[r | items0] |] eqn:Hdb; try discriminate.
  destruct (search_by_filters_reaches lower self cuisine_type location rating
              delivery_speed s items0 rs Hdb H)
    as [l' [s' [Hrun [_ [Hlen [_ Hn]]]]]].
  exists l', s'. split; [exact Hrun | split; [exact Hlen | split]].
  - intro H0. rewrite H0 in Hn. exact Hn.
  - intro Hpos.
    destruct (filters_in_force cuisine_type location rating delivery_speed);
      [lia |]. apply nth_error_None. exact Hn.
Qed.

(** X16: the list a search returns holds references of the database list,
    in their order, and what they refer to is what they referred to before the
    call: results share the restaurant dicts of the database. *)
Theorem results_share_the_dicts (self : Store.RestaurantBrowsing)
    (cuisine_type location : option string) (rating : option float)
    (delivery_speed : option Z) (s : Store.store) (items0 : list Store.loc)
    (rs : list Restaurant.t) :
  nth_error s (Store.restaurants (Store.database self)) = Some (Store.PyList items0) ->
  Store.records s items0 = Some rs ->
  exists (l' : Store.loc) (s' : Store.store) (kept : list Store.loc),
    Store.search_by_filters lower self cuisine_type location rating delivery_speed s
    = (Returns l', s') /\
    nth_error s' l' = Some (Store.PyList kept) /\
    subseq kept items0 /\
    forall x, In x kept ->
      exists r, nth_error s x = Some (Store.Dict r) /\
                nth_error s' x = Some (Store.Dict r).
Proof.
  intros Hdb Hrs.
  destruct (search_by_filters_reaches lower self cuisine_type location rating
              delivery_speed s items0 rs Hdb Hrs)
    as [l' [s' [Hrun [Hp [_ [[kept [Hl [Hsub _]]] _]]]]]].
  exists l', s', kept. repeat split; try assumption.
  intros x Hx. apply (subseq_In _ _ _ Hsub) in Hx.
  destruct (records_In s items0 rs x Hrs Hx) as [r Hr].
  exists r. split; [exact Hr | apply Hp, Hr].
Qed.

(** X17: [search_by_cuisine], [search_by_location] and [search_by_rating]
    always return a list object that was not in the store before, also when
    every record matches: never the list of the database. *)
Theorem single_searches_return_new_list (self : Store.RestaurantBrowsing)
    (q : string) (z : float) (s : Store.store) (rs : list Restaurant.t) :
  Store.contents s (Store.restaurants (Store.database self)) = Some rs ->
  (exists l' s', Store.search_by_cuisine lower self q s = (Returns l', s') /\
                 nth_error s l' = None) /\
  (exists l' s', Store.search_by_location lower self q s = (Returns l', s') /\
                 nth_error s l' = None) /\
  (exists l' s', Store.search_by_rating self z s = (Returns l', s') /\
                 nth_error s l' = None).
Proof.
  unfold Store.contents. intro H.
  destruct (nth_error s (Store.restaurants (Store.database self)))
    as [[r | items0] |] eqn:Hdb; try discriminate.
  pose proof (stage_start s _ items0 rs Hdb H) as H0.
  assert (Hone : forall cond,
             exists l' s',
               Store.bind (Store.get_restaurants (Store.database self))
                 (fun results => Store.comprehension cond results) s
               = (Returns l', s') /\ nth_error s l' = None).
  { intro cond.
    destruct (reaches_comprehension cond s _ items0 s _ 0 H0)
      as [l' [s' [Hrun [_ [_ [_ Hn]]]]]].
    exists l', s'. split; [exact Hrun | apply nth_error_None; exact Hn]. }
  repeat split; apply Hone.
Qed.

End Aliasing.

(** On the seed store, with two filters in force. *)
Lemma one_list_per_filter_witness :
  exists (l' : Store.loc) (s' : Store.store),
    Store.search_by_filters ascii_lower (Store.browsing Store.seed_search)
      (Some "Italian") (Some EmptyString) (Some 4.0%float) None Store.seed_store
    = (Returns l', s') /\
    List.length s'
    = (List.length Store.seed_store
       + filters_in_force (Some "Italian") (Some EmptyString) (Some 4.0%float) None)%nat /\
    (filters_in_force (Some "Italian") (Some EmptyString) (Some 4.0%float) None = 0%nat ->
     l' = Store.restaurants (Store.database (Store.browsing Store.seed_search)) /\
     s' = Store.seed_store) /\
    ((0 < filters_in_force (Some "Italian") (Some EmptyString) (Some 4.0%float) None)%nat ->
     nth_error Store.seed_store l' = None).
Proof.
  apply (one_list_per_filter ascii_lower (Store.browsing Store.seed_search)
           (Some "Italian"%string) (Some EmptyString) (Some 4.0%float) None
           Store.seed_store (get_restaurants RestaurantDatabase_init)).
  reflexivity.
Defined.

(** On the seed store, whose database list holds the references 0 to 7. *)
Lemma results_share_the_dicts_witness :
  exists (l' : Store.loc) (s' : Store.store) (kept : list Store.loc),
    Store.search_by_filters ascii_lower (Store.browsing Store.seed_search)
      (Some "Italian") None None (Some 30) Store.seed_store
    = (Returns l', s') /\
    nth_error s' l' = Some (Store.PyList kept) /\
    subseq kept [0; 1; 2; 3; 4; 5; 6; 7]%nat /\
    forall x, In x kept ->
      exists r, nth_error Store.seed_store x = Some (Store.Dict r) /\
                nth_error s' x = Some (Store.Dict r).
Proof.
  apply (results_share_the_dicts ascii_lower (Store.browsing Store.seed_search)
           (Some "Italian"%string) None None (Some 30) Store.seed_store
           [0; 1; 2; 3; 4; 5; 6; 7]%nat (get_restaurants RestaurantDatabase_init)).
  - reflexivity.
  - reflexivity.
Defined.

(** On the seed store; the rating bound 0.0 is met by every record. *)
Lemma single_searches_return_new_list_witness :
  (exists l' s',
      Store.search_by_cuisine ascii_lower (Store.browsing Store.seed_search)
        "Italian" Store.seed_store = (Returns l', s') /\
      nth_error Store.seed_store l' = None) /\
  (exists l' s',
      Store.search_by_location ascii_lower (Store.browsing Store.seed_search)
        "Italian" Store.seed_store = (Returns l', s') /\
      nth_error Store.seed_store l' = None) /\
  (exists l' s',
      Store.search_by_rating (Store.browsing Store.seed_search) 0.0 Store.seed_store
      = (Returns l', s') /\
      nth_error Store.seed_store l' = None).
Proof.
  apply (single_searches_return_new_list ascii_lower
           (Store.browsing Store.seed_search) "Italian" 0.0%float
           Store.seed_store (get_restaurants RestaurantDatabase_init)).
  reflexivity.
Defined.
